(** * OpenID-Connect login provider of Mealie

    A shallow embedding of
    [mealie/core/security/providers/openid_provider.py]
    ([OpenIDProvider.authenticate] and [OpenIDProvider.required_claims])
    and the properties of its decision logic.

    The method is a straight line of guarded early returns around four
    collaborators: the user repository (lookup, create, update), the
    database session (commit), the logger and the access-token issuer.
    Its effects are modelled by a small state monad with early return and
    exceptions over a world that holds the user table and the trace of the
    calls made to the collaborators. *)

From stdpp Require Import gmap strings list fin_maps.

Open Scope string_scope.
Open Scope list_scope.

(** ** Python values carried by claims *)

(** A claim value is text, a list of text, or [None]. *)
Inductive value : Type :=
  | VNone
  | VStr (s : string)
  | VList (l : list string).

#[global] Instance value_eq_dec : EqDecision value.
Proof. solve_decision. Defined.

(** Python truthiness: [None], the empty string and [[]] are falsy. *)
Definition truthy (v : value) : bool :=
  match v with
  | VNone => false
  | VStr s => negb (String.eqb s EmptyString)
  | VList l => negb (bool_decide (l = []))
  end.

(** [a or b] *)
Definition py_or (a b : value) : value := if truthy a then a else b.

(** [s.startswith(p)] *)
Fixpoint starts_with (p s : string) : bool :=
  match p, s with
  | EmptyString, _ => true
  | String a p', String b s' => Ascii.eqb a b && starts_with p' s'
  | String _ _, EmptyString => false
  end.

(** [p in s] for two strings: [p] occurs in [s] as a substring. *)
Fixpoint occurs_in (p s : string) : bool :=
  starts_with p s ||
  match s with
  | EmptyString => false
  | String _ s' => occurs_in p s'
  end.

(** [x in container].  On a list it is membership, on a string it is the
    substring test, and on [None] Python raises [TypeError], which is
    [None] here. *)
Definition py_in (x : string) (container : value) : option bool :=
  match container with
  | VNone => None
  | VStr s => Some (occurs_in x s)
  | VList l => Some (bool_decide (x ∈ l))
  end.

(** The claims of the id_token: a dict from claim name to value. *)
Abbreviation Claims := (gmap string value).

(** [claims.get(key, default)] *)
Definition dict_get_default (claims : Claims) (key : string) (default : value)
  : value :=
  match claims !! key with
  | Some v => v
  | None => default
  end.

(** [claims.get(key)] *)
Definition dict_get (claims : Claims) (key : string) : value :=
  dict_get_default claims key VNone.

(** ** Settings *)

(** Modelled from the spec: the options of [get_app_settings()] that the
    provider reads.  The settings class is declared outside this file; the
    two group names are text or empty and the provider tests them for
    truthiness. *)
Record Settings : Type := {
  OIDC_REQUIRES_GROUP_CLAIM : bool;
  OIDC_GROUPS_CLAIM : string;
  OIDC_ADMIN_GROUP : option string;
  OIDC_USER_GROUP : option string;
  OIDC_USER_CLAIM : string;
  OIDC_NAME_CLAIM : string;
  OIDC_SIGNUP_ENABLED : bool;
  OIDC_REMEMBER_ME : bool
}.

(** Truthiness of an optional text setting: set and not empty. *)
Definition configured (o : option string) : bool :=
  match o with
  | Some s => negb (String.eqb s EmptyString)
  | None => false
  end.

(** [required_claims] (lines 105-112). *)
Definition required_claims (settings : Settings) : gset string :=
  let claims : gset string :=
    {[ OIDC_NAME_CLAIM settings; "email"; OIDC_USER_CLAIM settings ]} in
  if OIDC_REQUIRES_GROUP_CLAIM settings
  then claims ∪ {[ OIDC_GROUPS_CLAIM settings ]}
  else claims.

(** ** Users, sessions and the world *)

(** Modelled from the spec: the auth-method tag, an enum that includes
    [OIDC]; [AuthMethod] is declared with the user model, outside this
    file, and the other two tags stand for the sibling providers. *)
Inductive AuthMethod : Type := MEALIE | LDAP | OIDC.

#[global] Instance AuthMethod_eq_dec : EqDecision AuthMethod.
Proof. solve_decision. Defined.

(** The dict handed to [repos.users.create] (lines 78-85). *)
Record UserData : Type := {
  d_username : value;
  d_password : string;
  d_full_name : value;
  d_email : value;
  d_admin : bool;
  d_auth_method : AuthMethod
}.

(** Modelled from the spec: a stored user as the repository returns it,
    with the fields that [repos.users.create] is given. *)
Record PrivateUser : Type := {
  id : nat;
  username : value;
  password : string;
  full_name : value;
  email : value;
  admin : bool;
  auth_method : AuthMethod
}.

(** [user.admin = flag] *)
Definition set_admin (user : PrivateUser) (flag : bool) : PrivateUser :=
  {| id := id user; username := username user; password := password user;
     full_name := full_name user; email := email user; admin := flag;
     auth_method := auth_method user |}.

(** Modelled from the spec: the result of [get_access_token], which the
    base class [AuthProvider] defines outside this file.  The spec calls it
    an opaque bearer token plus its time-to-live, generated from a user
    identity and a remember-me flag; it is kept symbolic. *)
Record Session : Type := AccessToken {
  session_user : PrivateUser;
  session_remember_me : bool
}.

Inductive Level : Type := Debug | Warning | Error.

Inductive exn : Type :=
  | TypeError
  | PersistenceError (msg : string).

(** What one call does to its collaborators, in order. *)
Inductive Event : Type :=
  | EvLog (lvl : Level) (msg : string)
  | EvLookup (name : value)
  | EvCreate (data : UserData)
  | EvCommit
  | EvUpdate (uid : nat) (user : PrivateUser)
  | EvIssue (user : PrivateUser) (remember_me : bool).

Record World : Type := {
  rows : list PrivateUser;
  next_id : nat;
  trace : list Event
}.

Definition emit (e : Event) (w : World) : World :=
  {| rows := rows w; next_id := next_id w; trace := trace w ++ [e] |}.

(** Which calls into the persistence layer raise, and what.  Every call
    into the repository or the session may fail. *)
Record Faults : Type := {
  lookup_raises : option exn;
  create_raises : option exn;
  commit_raises : option exn;
  update_raises : option exn
}.

Definition no_faults : Faults :=
  {| lookup_raises := None; create_raises := None;
     commit_raises := None; update_raises := None |}.

(** ** The monad of a method body *)

(** A statement ends normally, executes [return], or raises. *)
Inductive flow (A : Type) : Type :=
  | Normal (a : A)
  | Return (r : option Session)
  | Raise (e : exn).
Arguments Normal {A} a.
Arguments Return {A} r.
Arguments Raise {A} e.

Definition M (A : Type) : Type := World → World * flow A.

Definition pure {A} (a : A) : M A := λ w, (w, Normal a).

Definition bind {A B} (m : M A) (k : A → M B) : M B :=
  λ w, match m w with
       | (w', Normal a) => k a w'
       | (w', Return r) => (w', Return r)
       | (w', Raise e) => (w', Raise e)
       end.

Notation "'let*' x := m 'in' k" := (bind m (λ x, k))
  (at level 10, x name, m at level 100, k at level 200,
   format "'[v' 'let*'  x  :=  m  'in' '/' k ']'").
Notation "m >> k" := (bind m (λ _, k))
  (at level 100, k at level 200, right associativity,
   format "'[v' m  >> '/' k ']'").

Definition skip : M unit := pure tt.

(** [return r] *)
Definition return_ {A} (r : option Session) : M A := λ w, (w, Return r).

(** [raise e] *)
Definition raise {A} (e : exn) : M A := λ w, (w, Raise e).

(** [try: body  except Exception as e: handler e].  The effects of the
    body up to the exception stay. *)
Definition try_except {A} (body : M A) (handler : exn → M A) : M A :=
  λ w, match body w with
       | (w', Raise e) => handler e w'
       | other => other
       end.

(** [self._logger.<lvl>(msg, ...)] *)
Definition log (lvl : Level) (msg : string) : M unit :=
  λ w, (emit (EvLog lvl msg) w, Normal tt).

(** A call into the persistence layer: it is recorded, then it raises or
    runs. *)
Definition persistence_call {A} (e : Event) (fault : option exn) (run : M A)
  : M A :=
  λ w, match fault with
       | Some err => (emit e w, Raise err)
       | None => run (emit e w)
       end.

(** ** The collaborators *)

Definition is_oidc_user (name : value) (u : PrivateUser) : bool :=
  bool_decide (username u = name) && bool_decide (auth_method u = OIDC).

(** Modelled from the spec: the lookup behind [try_get_user], which the
    base class [AuthProvider] defines outside this file: an existing user
    whose username equals the given value and whose auth-method is OIDC. *)
Definition find_user (name : value) (users : list PrivateUser)
  : option PrivateUser :=
  List.find (is_oidc_user name) users.

Definition try_get_user (ft : Faults) (name : value) : M (option PrivateUser) :=
  persistence_call (EvLookup name) (lookup_raises ft)
    (λ w, (w, Normal (find_user name (rows w)))).

Definition new_user (uid : nat) (data : UserData) : PrivateUser :=
  {| id := uid; username := d_username data; password := d_password data;
     full_name := d_full_name data; email := d_email data;
     admin := d_admin data; auth_method := d_auth_method data |}.

(** Modelled from the spec: [repos.users.create], of the repository
    outside this file: it stores a new user built from the data under a
    fresh id and returns it. *)
Definition users_create (ft : Faults) (data : UserData) : M PrivateUser :=
  persistence_call (EvCreate data) (create_raises ft)
    (λ w, let u := new_user (next_id w) data in
          ({| rows := rows w ++ [u]; next_id := S (next_id w);
              trace := trace w |}, Normal u)).

(** Modelled from the spec: [self.session.commit()]. *)
Definition session_commit (ft : Faults) : M unit :=
  persistence_call EvCommit (commit_raises ft) skip.

Definition replace_user (uid : nat) (user : PrivateUser)
  (users : list PrivateUser) : list PrivateUser :=
  List.map (λ r, if Nat.eqb (id r) uid then user else r) users.

(** Modelled from the spec: [repos.users.update], of the repository
    outside this file: it overwrites the row of the given id. *)
Definition users_update (ft : Faults) (uid : nat) (user : PrivateUser)
  : M PrivateUser :=
  persistence_call (EvUpdate uid user) (update_raises ft)
    (λ w, ({| rows := replace_user uid user (rows w); next_id := next_id w;
              trace := trace w |}, Normal user)).

(** [self.get_access_token(user, remember_me)] *)
Definition get_access_token (user : PrivateUser) (remember_me : bool)
  : M Session :=
  λ w, (emit (EvIssue user remember_me) w,
        Normal (AccessToken user remember_me)).

(** ** The provider *)

(** [group in group_claim if group else otherwise] (lines 46 and 51). *)
Definition in_if_configured (group : option string) (group_claim : value)
  (otherwise : bool) : M bool :=
  match group with
  | Some g =>
      if configured (Some g)
      then match py_in g group_claim with
           | Some b => pure b
           | None => raise TypeError
           end
      else pure otherwise
  | None => pure otherwise
  end.

(** [OpenIDProvider.authenticate] (lines 21-103). *)
Definition authenticate (settings : Settings) (ft : Faults) (claims : Claims)
  : M unit :=
  (if bool_decide (claims = ∅)
   then log Error "[OIDC] No claims in the id_token" >>
        return_ None
   else skip) >>
  (if negb (bool_decide (required_claims settings ⊆ dom claims))
   then log Error "[OIDC] Required claims not present. Expected: %s Actual: %s" >>
        return_ None
   else skip) >>
  let* is_admin :=
    (if OIDC_REQUIRES_GROUP_CLAIM settings
     then
       let group_claim :=
         py_or (dict_get_default claims (OIDC_GROUPS_CLAIM settings) (VList []))
               (VList []) in
       log Debug "[OIDC] User groups: %s" >>
       let* is_admin :=
         in_if_configured (OIDC_ADMIN_GROUP settings) group_claim false in
       (if is_admin
        then log Debug "[OIDC] User has admin group: %s"
        else skip) >>
       let* is_valid_user :=
         in_if_configured (OIDC_USER_GROUP settings) group_claim true in
       (if is_valid_user
        then log Debug "[OIDC] User has required user group: %s"
        else skip) >>
       (if negb (is_valid_user || is_admin)
        then log Warning
               "[OIDC] User does not have required group membership. Groups: %s, Required (one of): %s" >>
             return_ None
        else skip) >>
       pure is_admin
     else pure false) in
  let* user := try_get_user ft (dict_get claims (OIDC_USER_CLAIM settings)) in
  let* user :=
    (match user with
     | None =>
         (if negb (OIDC_SIGNUP_ENABLED settings)
          then log Debug
                 "[OIDC] No user found. Not creating a new user - new user creation is disabled." >>
               return_ None
          else skip) >>
         log Debug "[OIDC] No user found. Creating new OIDC user." >>
         let* user :=
           try_except
             (let username :=
                dict_get_default claims "preferred_username"
                  (dict_get_default claims "username"
                     (dict_get claims (OIDC_USER_CLAIM settings))) in
              let* user :=
                users_create ft
                  {| d_username := username;
                     d_password := "OIDC";
                     d_full_name := dict_get claims (OIDC_NAME_CLAIM settings);
                     d_email := dict_get claims "email";
                     d_admin := is_admin;
                     d_auth_method := OIDC |} in
              session_commit ft >>
              pure user)
             (λ e,
                log Error "[OIDC] Exception while creating user: %s" >>
                return_ None) in
         let* token := get_access_token user (OIDC_REMEMBER_ME settings) in
         return_ (Some token)
     | Some _ => pure user
     end) in
  (match user with
   | Some user =>
       let* user :=
         (if configured (OIDC_ADMIN_GROUP settings)
             && negb (Bool.eqb (admin user) is_admin)
          then
            log Debug "[OIDC] %s user as admin" >>
            let user := set_admin user is_admin in
            users_update ft (id user) user >>
            pure user
          else pure user) in
       let* token := get_access_token user (OIDC_REMEMBER_ME settings) in
       return_ (Some token)
   | None => skip
   end) >>
  log Warning "[OIDC] Found user but their AuthMethod does not match OIDC" >>
  return_ None.

(** What the caller of a method gets. *)
Inductive outcome : Type :=
  | Returned (r : option Session)
  | Raised (e : exn).

(** Calling a method: a body that runs off its end returns [None]. *)
Definition call (body : M unit) (w : World) : World * outcome :=
  match body w with
  | (w', Normal _) => (w', Returned None)
  | (w', Return r) => (w', Returned r)
  | (w', Raise e) => (w', Raised e)
  end.

(** ** The decision table of one call *)

(** The value of [group_claim] (line 42). *)
Definition read_group_claim (settings : Settings) (claims : Claims) : value :=
  py_or (dict_get_default claims (OIDC_GROUPS_CLAIM settings) (VList []))
        (VList []).

(** The value of [group in group_claim if group else otherwise] when the
    membership test does not raise. *)
Definition in_group (group : option string) (group_claim : value)
  (otherwise : bool) : bool :=
  match group with
  | Some g =>
      if configured (Some g)
      then match py_in g group_claim with Some b => b | None => false end
      else otherwise
  | None => otherwise
  end.

(** The value of [is_admin] after line 61. *)
Definition is_admin_of (settings : Settings) (claims : Claims) : bool :=
  if OIDC_REQUIRES_GROUP_CLAIM settings
  then in_group (OIDC_ADMIN_GROUP settings) (read_group_claim settings claims)
         false
  else false.

(** The value of [is_valid_user] (line 51). *)
Definition is_valid_user_of (settings : Settings) (claims : Claims) : bool :=
  in_group (OIDC_USER_GROUP settings) (read_group_claim settings claims) true.

(** The two claims guards (lines 26-36) let the call through. *)
Definition claims_ok (settings : Settings) (claims : Claims) : bool :=
  negb (bool_decide (claims = ∅))
  && bool_decide (required_claims settings ⊆ dom claims).

(** The group guard (lines 41-61) lets the call through. *)
Definition group_ok (settings : Settings) (claims : Claims) : bool :=
  if OIDC_REQUIRES_GROUP_CLAIM settings
  then is_valid_user_of settings claims || is_admin_of settings claims
  else true.

(** The call reaches the user lookup of line 63. *)
Definition reaches_lookup (settings : Settings) (claims : Claims) : bool :=
  claims_ok settings claims && group_ok settings claims.

(** The debug lines of the group check. *)
Definition group_logs (settings : Settings) (claims : Claims) : list Event :=
  if OIDC_REQUIRES_GROUP_CLAIM settings
  then [EvLog Debug "[OIDC] User groups: %s"]
       ++ (if is_admin_of settings claims
           then [EvLog Debug "[OIDC] User has admin group: %s"] else [])
       ++ (if is_valid_user_of settings claims
           then [EvLog Debug "[OIDC] User has required user group: %s"]
           else [])
  else [].

(** The username of a new user (lines 74-76). *)
Definition derived_username (settings : Settings) (claims : Claims) : value :=
  dict_get_default claims "preferred_username"
    (dict_get_default claims "username"
       (dict_get claims (OIDC_USER_CLAIM settings))).

(** The data of a new user (lines 78-85). *)
Definition signup_data (settings : Settings) (claims : Claims) : UserData :=
  {| d_username := derived_username settings claims;
     d_password := "OIDC";
     d_full_name := dict_get claims (OIDC_NAME_CLAIM settings);
     d_email := dict_get claims "email";
     d_admin := is_admin_of settings claims;
     d_auth_method := OIDC |}.

(** A world after a call: its table, its id counter and the new events. *)
Definition after (users : list PrivateUser) (next : nat) (evs : list Event)
  (w : World) : World :=
  {| rows := users; next_id := next; trace := trace w ++ evs |}.

(** Only events were added. *)
Definition logged (evs : list Event) (w : World) : World :=
  after (rows w) (next_id w) evs w.

(** Every path through [authenticate], flattened. *)
Definition authenticate_table (settings : Settings) (ft : Faults)
  (claims : Claims) (w : World) : World * flow unit :=
  if bool_decide (claims = ∅) then
    (logged [EvLog Error "[OIDC] No claims in the id_token"] w, Return None)
  else if negb (bool_decide (required_claims settings ⊆ dom claims)) then
    (logged [EvLog Error
               "[OIDC] Required claims not present. Expected: %s Actual: %s"] w,
     Return None)
  else if negb (group_ok settings claims) then
    (logged (group_logs settings claims
             ++ [EvLog Warning
                   "[OIDC] User does not have required group membership. Groups: %s, Required (one of): %s"])
       w,
     Return None)
  else
    let is_admin := is_admin_of settings claims in
    let name := dict_get claims (OIDC_USER_CLAIM settings) in
    let remember := OIDC_REMEMBER_ME settings in
    let pre := group_logs settings claims ++ [EvLookup name] in
    match lookup_raises ft with
    | Some e => (logged pre w, Raise e)
    | None =>
        match find_user name (rows w) with
        | None =>
            if negb (OIDC_SIGNUP_ENABLED settings) then
              (logged
                 (pre ++ [EvLog Debug
                            "[OIDC] No user found. Not creating a new user - new user creation is disabled."])
                 w,
               Return None)
            else
              let data := signup_data settings claims in
              let user := new_user (next_id w) data in
              let start :=
                pre ++ [EvLog Debug "[OIDC] No user found. Creating new OIDC user.";
                        EvCreate data] in
              let failed :=
                EvLog Error "[OIDC] Exception while creating user: %s" in
              match create_raises ft, commit_raises ft with
              | Some _, _ => (logged (start ++ [failed]) w, Return None)
              | None, Some _ =>
                  (after (rows w ++ [user]) (S (next_id w))
                     (start ++ [EvCommit; failed]) w,
                   Return None)
              | None, None =>
                  (after (rows w ++ [user]) (S (next_id w))
                     (start ++ [EvCommit; EvIssue user remember]) w,
                   Return (Some (AccessToken user remember)))
              end
        | Some user =>
            if configured (OIDC_ADMIN_GROUP settings)
               && negb (Bool.eqb (admin user) is_admin)
            then
              let user' := set_admin user is_admin in
              let start :=
                pre ++ [EvLog Debug "[OIDC] %s user as admin";
                        EvUpdate (id user) user'] in
              match update_raises ft with
              | Some e => (logged start w, Raise e)
              | None =>
                  (after (replace_user (id user) user' (rows w)) (next_id w)
                     (start ++ [EvIssue user' remember]) w,
                   Return (Some (AccessToken user' remember)))
              end
            else
              (logged (pre ++ [EvIssue user remember]) w,
               Return (Some (AccessToken user remember)))
        end
    end.

(** ** Observing a call *)

(** The events a call added to the trace. *)
Definition new_events (w w' : World) : list Event :=
  drop (length (trace w)) (trace w').

(** A write to the user repository: a create or an update. *)
Definition is_write (e : Event) : bool :=
  match e with
  | EvCreate _ | EvUpdate _ _ => true
  | _ => false
  end.

(** Any call into the persistence layer. *)
Definition is_persistence (e : Event) : bool :=
  match e with
  | EvLookup _ | EvCreate _ | EvCommit | EvUpdate _ _ => true
  | _ => false
  end.

(** The warning of the last branch (line 102). *)
Definition final_warning : Event :=
  EvLog Warning "[OIDC] Found user but their AuthMethod does not match OIDC".

(** The admin flag stored for the user that a lookup by name finds. *)
Definition stored_admin (name : value) (w : World) : option bool :=
  admin <$> find_user name (rows w).

(** A call succeeds for a stored user whose admin flag is [flag]. *)
Definition succeeds_with_admin (flag : bool) (result : World * outcome)
  : Prop :=
  ∃ u remember,
    result.2 = Returned (Some (AccessToken u remember))
    ∧ admin u = flag
    ∧ u ∈ rows result.1.

(** [group in group_claim], for an optional group name. *)
Definition listed (group : option string) (group_claim : value) : bool :=
  match group with
  | Some g => match py_in g group_claim with Some b => b | None => false end
  | None => false
  end.

(** The admin-flag sentence of the spec at one call: the stored flag is
    synchronised when group checking is on and left alone when it is
    off. *)
Definition claimed_admin_sync (settings : Settings) (ft : Faults)
  (claims : Claims) (w : World) : Prop :=
  let name := dict_get claims (OIDC_USER_CLAIM settings) in
  let is_admin := is_admin_of settings claims in
  let result := call (authenticate settings ft claims) w in
  ∀ u,
    reaches_lookup settings claims = true →
    lookup_raises ft = None →
    find_user name (rows w) = Some u →
    (OIDC_REQUIRES_GROUP_CLAIM settings = true → admin u ≠ is_admin →
       stored_admin name result.1 = Some is_admin)
    ∧ (OIDC_REQUIRES_GROUP_CLAIM settings = false →
       stored_admin name result.1 = Some (admin u)).

(** ** Sample inputs *)

Definition settings_groups : Settings :=
  {| OIDC_REQUIRES_GROUP_CLAIM := true; OIDC_GROUPS_CLAIM := "groups";
     OIDC_ADMIN_GROUP := Some "admins"; OIDC_USER_GROUP := Some "users";
     OIDC_USER_CLAIM := "email"; OIDC_NAME_CLAIM := "name";
     OIDC_SIGNUP_ENABLED := true; OIDC_REMEMBER_ME := false |}.

(** Group checking on, no admin group. *)
Definition settings_no_admin_group : Settings :=
  {| OIDC_REQUIRES_GROUP_CLAIM := true; OIDC_GROUPS_CLAIM := "groups";
     OIDC_ADMIN_GROUP := None; OIDC_USER_GROUP := Some "users";
     OIDC_USER_CLAIM := "email"; OIDC_NAME_CLAIM := "name";
     OIDC_SIGNUP_ENABLED := true; OIDC_REMEMBER_ME := false |}.

(** Group checking off, an admin group set all the same. *)
Definition settings_groups_off : Settings :=
  {| OIDC_REQUIRES_GROUP_CLAIM := false; OIDC_GROUPS_CLAIM := "groups";
     OIDC_ADMIN_GROUP := Some "admins"; OIDC_USER_GROUP := None;
     OIDC_USER_CLAIM := "email"; OIDC_NAME_CLAIM := "name";
     OIDC_SIGNUP_ENABLED := true; OIDC_REMEMBER_ME := false |}.

Definition settings_no_signup : Settings :=
  {| OIDC_REQUIRES_GROUP_CLAIM := false; OIDC_GROUPS_CLAIM := "groups";
     OIDC_ADMIN_GROUP := None; OIDC_USER_GROUP := None;
     OIDC_USER_CLAIM := "email"; OIDC_NAME_CLAIM := "name";
     OIDC_SIGNUP_ENABLED := false; OIDC_REMEMBER_ME := false |}.

Definition claims_of (groups : list string) : Claims :=
  <[ "email" := VStr "ann@example.org" ]>
    (<[ "name" := VStr "Ann" ]> (<[ "groups" := VList groups ]> ∅)).

Definition claims_ann : Claims := claims_of ["users"].

Definition claims_no_email : Claims := <[ "name" := VStr "Ann" ]> ∅.

Definition user_ann (is_admin : bool) : PrivateUser :=
  {| id := 1; username := VStr "ann@example.org"; password := "OIDC";
     full_name := VStr "Ann"; email := VStr "ann@example.org";
     admin := is_admin; auth_method := OIDC |}.

Definition world_ann (is_admin : bool) : World :=
  {| rows := [user_ann is_admin]; next_id := 2; trace := [] |}.

Definition world_empty : World := {| rows := []; next_id := 1; trace := [] |}.

Definition update_fails : Faults :=
  {| lookup_raises := None; create_raises := None; commit_raises := None;
     update_raises := Some (PersistenceError "database is locked") |}.

Definition create_fails : Faults :=
  {| lookup_raises := None;
     create_raises := Some (PersistenceError "UNIQUE constraint failed");
     commit_raises := None; update_raises := None |}.

(** ** More observations *)

(** The calls into the persistence layer among some events, in order. *)
Definition persistence_calls (evs : list Event) : list Event :=
  List.filter is_persistence evs.

(** Two rows that differ in the admin flag at most. *)
Definition same_but_admin (r r' : PrivateUser) : Prop :=
  r' = set_admin r (admin r').

(** ** More sample inputs *)

Definition lookup_fails : Faults :=
  {| lookup_raises := Some (PersistenceError "connection refused");
     create_raises := None; commit_raises := None; update_raises := None |}.


(** The groups claim as one text instead of a list. *)
Definition claims_text_groups : Claims :=
  <[ "email" := VStr "ann@example.org" ]>
    (<[ "name" := VStr "Ann" ]> (<[ "groups" := VStr "superadmins" ]> ∅)).

Definition user_bob : PrivateUser :=
  {| id := 2; username := VStr "bob@example.org"; password := "secret";
     full_name := VStr "Bob"; email := VStr "bob@example.org";
     admin := false; auth_method := MEALIE |}.

Definition world_ann_bob : World :=
  {| rows := [user_bob; user_ann true]; next_id := 3; trace := [] |}.

(** ** Basic facts *)

Lemma read_group_claim_not_none settings claims :
  read_group_claim settings claims ≠ VNone.
Proof.
  unfold read_group_claim, py_or.
  destruct (dict_get_default _ _ _) as [|s|l]; simpl; try discriminate.
  - destruct (negb _); discriminate.
  - destruct (negb _); discriminate.
Qed.

(** Case analysis on a scrutinee that holds no other case analysis. *)
Ltac split_innermost :=
  match goal with
  | |- context [match ?x with _ => _ end] =>
      lazymatch x with
      | context [match _ with _ => _ end] => fail
      | _ => destruct x eqn:?
      end
  end.

Lemma authenticate_unfold settings ft claims w :
  authenticate settings ft claims w = authenticate_table settings ft claims w.
Proof.
  pose proof (read_group_claim_not_none settings claims) as Hgc.
  unfold authenticate, authenticate_table.
  unfold signup_data, derived_username, group_ok, group_logs, is_admin_of,
    is_valid_user_of, in_group, in_if_configured in *.
  unfold read_group_claim in *.
  destruct (bool_decide (claims = ∅)); [reflexivity|].
  destruct (bool_decide (required_claims settings ⊆ dom claims)); [|reflexivity].
  destruct settings as [req gc ag ug uc nc su rm]; simpl in *.
  destruct ft as [fl fc fm fu]; simpl.
  destruct w as [rs nid tr].
  unfold bind, skip, pure, log, return_, raise, try_except, try_get_user,
    users_create, session_commit, users_update, get_access_token,
    persistence_call, logged, after, emit; simpl.
  destruct req; simpl.
  - destruct (py_or (dict_get_default claims gc (VList [])) (VList []))
      as [|s|l] eqn:E; [congruence|..]; simpl;
    repeat (split_innermost; simpl in * );
    rewrite <- ?app_assoc; simpl; try reflexivity.
  - repeat (split_innermost; simpl in * );
    rewrite <- ?app_assoc; simpl; try reflexivity.
Qed.


(** ** Facts about the observations *)

Lemma new_events_after users next evs w :
  new_events w (after users next evs w) = evs.
Proof. unfold new_events, after; simpl. apply drop_app_length. Qed.

Lemma new_events_logged evs w : new_events w (logged evs w) = evs.
Proof. apply new_events_after. Qed.

(** A call is the table with [return] and [raise] read by the caller. *)
Lemma call_authenticate settings ft claims w :
  call (authenticate settings ft claims) w =
  match authenticate_table settings ft claims w with
  | (w', Normal _) => (w', Returned None)
  | (w', Return r) => (w', Returned r)
  | (w', Raise e) => (w', Raised e)
  end.
Proof. unfold call. by rewrite authenticate_unfold. Qed.

Lemma required_claims_spec settings k :
  k ∈ required_claims settings ↔
  k = OIDC_NAME_CLAIM settings ∨ k = "email" ∨ k = OIDC_USER_CLAIM settings
  ∨ (OIDC_REQUIRES_GROUP_CLAIM settings = true ∧ k = OIDC_GROUPS_CLAIM settings).
Proof.
  unfold required_claims.
  destruct (OIDC_REQUIRES_GROUP_CLAIM settings);
    rewrite ?elem_of_union, !elem_of_singleton; intuition discriminate.
Qed.

Lemma claims_ok_false settings claims :
  claims = ∅ ∨
  (∃ k, (k = OIDC_NAME_CLAIM settings ∨ k = "email"
         ∨ k = OIDC_USER_CLAIM settings
         ∨ (OIDC_REQUIRES_GROUP_CLAIM settings = true
            ∧ k = OIDC_GROUPS_CLAIM settings))
        ∧ claims !! k = None) →
  claims_ok settings claims = false.
Proof.
  unfold claims_ok. intros [->|(k & Hk & Hnone)].
  - by rewrite bool_decide_eq_true_2.
  - apply andb_false_iff. right. apply bool_decide_eq_false_2.
    intros Hsub. apply required_claims_spec in Hk.
    apply Hsub in Hk. apply elem_of_dom in Hk as [v Hv]. congruence.
Qed.

(** ** Claims that are empty or incomplete *)

(** C5.  When the claims are empty, or one of the required claims
    (the name claim, "email", the user claim, and the groups claim when
    group checking is on) is missing from them, [authenticate] returns
    [None], leaves the user table as it was, and makes no call into the
    persistence layer: no lookup, no create, no update, no commit. *)
Theorem invalid_claims_refused settings ft claims w :
  claims = ∅ ∨
  (∃ k, (k = OIDC_NAME_CLAIM settings ∨ k = "email"
         ∨ k = OIDC_USER_CLAIM settings
         ∨ (OIDC_REQUIRES_GROUP_CLAIM settings = true
            ∧ k = OIDC_GROUPS_CLAIM settings))
        ∧ claims !! k = None) →
  let result := call (authenticate settings ft claims) w in
  result.2 = Returned None
  ∧ rows result.1 = rows w
  ∧ Forall (λ e, is_persistence e = false) (new_events w result.1).
Proof.
  intros H%claims_ok_false. simpl. rewrite call_authenticate.
  unfold authenticate_table, claims_ok in *.
  destruct (bool_decide (claims = ∅)); simpl.
  - rewrite new_events_logged. repeat split. by repeat constructor.
  - simpl in H. rewrite H. simpl. rewrite new_events_logged.
    repeat split. by repeat constructor.
Qed.

Lemma invalid_claims_refused_witness :
  let result := call (authenticate settings_groups no_faults claims_no_email)
                  (world_ann false) in
  result.2 = Returned None
  ∧ rows result.1 = rows (world_ann false)
  ∧ Forall (λ e, is_persistence e = false)
      (new_events (world_ann false) result.1).
Proof.
  apply invalid_claims_refused.
  right. exists "email". split; [by right; left | reflexivity].
Defined.

(** ** No user and no signup *)

(** C7.  When signup is disabled and no OIDC user has the username of the
    user claim, [authenticate] returns [None], leaves the user table as it
    was, and performs no create, no update and no commit, whatever the
    claims are. *)
Theorem no_user_no_signup_refused settings ft claims w :
  OIDC_SIGNUP_ENABLED settings = false →
  lookup_raises ft = None →
  find_user (dict_get claims (OIDC_USER_CLAIM settings)) (rows w) = None →
  let result := call (authenticate settings ft claims) w in
  result.2 = Returned None
  ∧ rows result.1 = rows w
  ∧ Forall (λ e, is_write e = false ∧ e ≠ EvCommit) (new_events w result.1).
Proof.
  intros Hsu Hl Hfind. simpl. rewrite call_authenticate.
  unfold authenticate_table. rewrite Hsu, Hl, Hfind. simpl.
  unfold group_logs.
  repeat (split_innermost; simpl); rewrite new_events_logged.
  all: repeat split; repeat constructor; done.
Qed.

Lemma no_user_no_signup_refused_witness :
  let result := call (authenticate settings_no_signup no_faults claims_ann)
                  world_empty in
  result.2 = Returned None
  ∧ rows result.1 = rows world_empty
  ∧ Forall (λ e, is_write e = false ∧ e ≠ EvCommit)
      (new_events world_empty result.1).
Proof. apply no_user_no_signup_refused; reflexivity. Defined.

(** ** Writes per call *)

(** C8.  Among the events of one call of [authenticate] at most one is a
    write to the user repository: one create or one update, never both and
    never two of either. *)
Theorem at_most_one_write settings ft claims w :
  (length (filter (λ e, is_write e = true)
             (new_events w (call (authenticate settings ft claims) w).1))
   ≤ 1)%nat.
Proof.
  rewrite call_authenticate. unfold authenticate_table, group_logs.
  repeat (split_innermost; simpl);
    rewrite ?new_events_logged, ?new_events_after; simpl;
    repeat (rewrite ?filter_app, ?filter_cons, ?filter_nil; simpl;
            try case_decide; simpl); try done; try lia.
Qed.

Lemma not_elem_of_Forall {A} (x : A) (l : list A) :
  Forall (λ y, y ≠ x) l → x ∉ l.
Proof. rewrite Forall_forall. intros H Hx. by apply (H x). Qed.

(** ** The last branch *)

(** C10.  The last branch of [authenticate] (the warning that the
    AuthMethod does not match, then [return None]) is never executed: no
    call logs that warning, the body never runs off its end, and whenever
    it returns, the event before the return is not that warning.  A call
    ends in one of the earlier returns or in an exception raised before the
    last branch. *)
Theorem final_branch_unreachable settings ft claims w :
  let result := authenticate settings ft claims w in
  (final_warning ∉ new_events w result.1)
  ∧ (∀ x, result.2 ≠ Normal x)
  ∧ (∀ r, result.2 = Return r →
       ∃ e, last (new_events w result.1) = Some e ∧ e ≠ final_warning).
Proof.
  simpl. rewrite authenticate_unfold.
  unfold authenticate_table, group_logs, final_warning.
  repeat (split_innermost; simpl);
    rewrite ?new_events_logged, ?new_events_after; simpl.
  all: split; [|split].
  all: try (intros; discriminate).
  all: try (apply not_elem_of_Forall;
            repeat (apply Forall_cons_2; [discriminate|]); apply Forall_nil_2).
  all: intros r _; eexists; split; [reflexivity | discriminate].
Qed.

(** Past the guards the table is the lookup and what follows it. *)
Lemma reaches_lookup_guards settings claims :
  reaches_lookup settings claims = true →
  bool_decide (claims = ∅) = false
  ∧ bool_decide (required_claims settings ⊆ dom claims) = true
  ∧ group_ok settings claims = true.
Proof.
  unfold reaches_lookup, claims_ok.
  intros [[H1 H2]%andb_true_iff H3]%andb_true_iff.
  apply negb_true_iff in H1. done.
Qed.

(** ** Signup *)

(** C3.  In the signup branch (the call reaches the lookup, no OIDC user
    is found, signup is enabled), when [repos.users.create] or the commit
    after it raises, [authenticate] returns [None]; the exception does not
    reach the caller. *)
Theorem provisioning_failure_refused settings ft claims w :
  reaches_lookup settings claims = true →
  lookup_raises ft = None →
  find_user (dict_get claims (OIDC_USER_CLAIM settings)) (rows w) = None →
  OIDC_SIGNUP_ENABLED settings = true →
  is_Some (create_raises ft) ∨ is_Some (commit_raises ft) →
  (call (authenticate settings ft claims) w).2 = Returned None.
Proof.
  intros (Hne & Hsub & Hg)%reaches_lookup_guards Hl Hfind Hsu Hfail.
  rewrite call_authenticate. unfold authenticate_table.
  rewrite Hne, Hsub, Hg, Hl, Hfind, Hsu. simpl.
  destruct Hfail as [[e He]|[e He]]; rewrite He.
  - reflexivity.
  - by destruct (create_raises ft).
Qed.

Lemma provisioning_failure_refused_witness :
  (call (authenticate settings_groups create_fails claims_ann) world_empty).2
  = Returned None.
Proof.
  apply provisioning_failure_refused.
  - vm_compute. reflexivity.
  - reflexivity.
  - reflexivity.
  - reflexivity.
  - left. eexists. reflexivity.
Defined.

(** C6.  In the signup branch, [repos.users.create] is called with the
    username taken from claim "preferred_username" if present, else from
    claim "username" if present, else from the user claim; the password
    marker "OIDC"; the full name from the name claim; the email from claim
    "email"; the admin flag [is_admin], which is false when group checking
    is off; and the auth method OIDC.  When create and commit do not raise,
    the new user is stored and the access token issued for it is
    returned. *)
Theorem signup_creates_user settings ft claims w :
  reaches_lookup settings claims = true →
  lookup_raises ft = None →
  find_user (dict_get claims (OIDC_USER_CLAIM settings)) (rows w) = None →
  OIDC_SIGNUP_ENABLED settings = true →
  let result := call (authenticate settings ft claims) w in
  let data :=
    {| d_username :=
         match claims !! "preferred_username" with
         | Some v => v
         | None =>
             match claims !! "username" with
             | Some v => v
             | None => dict_get claims (OIDC_USER_CLAIM settings)
             end
         end;
       d_password := "OIDC";
       d_full_name := dict_get claims (OIDC_NAME_CLAIM settings);
       d_email := dict_get claims "email";
       d_admin := is_admin_of settings claims;
       d_auth_method := OIDC |} in
  let user := new_user (next_id w) data in
  EvCreate data ∈ new_events w result.1
  ∧ (OIDC_REQUIRES_GROUP_CLAIM settings = false → d_admin data = false)
  ∧ (create_raises ft = None → commit_raises ft = None →
       result.2 = Returned (Some (AccessToken user (OIDC_REMEMBER_ME settings)))
       ∧ rows result.1 = rows w ++ [user]).
Proof.
  intros (Hne & Hsub & Hg)%reaches_lookup_guards Hl Hfind Hsu. simpl.
  rewrite call_authenticate. unfold authenticate_table.
  rewrite Hne, Hsub, Hg, Hl, Hfind, Hsu. simpl.
  change (signup_data settings claims) with
    {| d_username := derived_username settings claims;
       d_password := "OIDC";
       d_full_name := dict_get claims (OIDC_NAME_CLAIM settings);
       d_email := dict_get claims "email";
       d_admin := is_admin_of settings claims;
       d_auth_method := OIDC |}.
  unfold derived_username, dict_get_default at 1 2.
  split; [|split].
  - destruct (create_raises ft), (commit_raises ft); simpl;
      rewrite ?new_events_logged, ?new_events_after;
      rewrite !elem_of_app, !elem_of_cons; tauto.
  - unfold is_admin_of. by intros ->.
  - intros -> ->. simpl. done.
Qed.

Lemma signup_creates_user_witness :
  (call (authenticate settings_groups no_faults (claims_of ["admins"]))
     world_empty).2
  = Returned
      (Some (AccessToken
               {| id := 1; username := VStr "ann@example.org";
                  password := "OIDC"; full_name := VStr "Ann";
                  email := VStr "ann@example.org"; admin := true;
                  auth_method := OIDC |} false)).
Proof.
  refine (proj1 (proj2 (proj2
    (signup_creates_user settings_groups no_faults (claims_of ["admins"])
       world_empty _ _ _ _)) _ _)); reflexivity.
Defined.

(** ** The stored row after an update *)

Lemma find_user_replace name users u u' :
  find_user name users = Some u →
  is_oidc_user name u' = true →
  find_user name (replace_user (id u) u' users) = Some u'.
Proof.
  unfold find_user, replace_user. intros Hfind Hu'.
  induction users as [|x users IH]; simpl in *; [discriminate|].
  destruct (is_oidc_user name x) eqn:Hx.
  - injection Hfind as ->. rewrite Nat.eqb_refl. simpl. by rewrite Hu'.
  - destruct (id x =? id u)%nat; simpl.
    + by rewrite Hu'.
    + rewrite Hx. by apply IH.
Qed.

Lemma find_user_oidc name users u :
  find_user name users = Some u → is_oidc_user name u = true.
Proof. unfold find_user. intros H. by apply find_some in H as [_ H]. Qed.

Lemma find_user_elem name users u :
  find_user name users = Some u → u ∈ users.
Proof.
  unfold find_user. intros H. apply find_some in H as [H _].
  by apply list_elem_of_In.
Qed.

Lemma replace_user_elem users u u' :
  u ∈ users → u' ∈ replace_user (id u) u' users.
Proof.
  unfold replace_user. intros H. apply list_elem_of_fmap.
  exists u. by rewrite Nat.eqb_refl.
Qed.

(** ** The admin flag of an existing user *)

(** C1, as amended.  When the lookup finds an OIDC user: if the admin
    group is configured, the stored admin flag differs from [is_admin] and
    the update does not raise, the stored flag is set to [is_admin] by an
    update that comes before the token is issued, and the token is issued
    for the updated user; if the admin group is not configured, the user
    table and the stored flag are left as they were. *)
Theorem admin_sync_follows_admin_group settings ft claims w u :
  let name := dict_get claims (OIDC_USER_CLAIM settings) in
  let is_admin := is_admin_of settings claims in
  let remember := OIDC_REMEMBER_ME settings in
  let result := call (authenticate settings ft claims) w in
  reaches_lookup settings claims = true →
  lookup_raises ft = None →
  find_user name (rows w) = Some u →
  (configured (OIDC_ADMIN_GROUP settings) = true → admin u ≠ is_admin →
   update_raises ft = None →
     stored_admin name result.1 = Some is_admin
     ∧ result.2 = Returned (Some (AccessToken (set_admin u is_admin) remember))
     ∧ new_events w result.1 =
         group_logs settings claims
         ++ [EvLookup name; EvLog Debug "[OIDC] %s user as admin";
             EvUpdate (id u) (set_admin u is_admin);
             EvIssue (set_admin u is_admin) remember])
  ∧ (configured (OIDC_ADMIN_GROUP settings) = false →
     rows result.1 = rows w
     ∧ stored_admin name result.1 = Some (admin u)
     ∧ result.2 = Returned (Some (AccessToken u remember))).
Proof.
  simpl. intros (Hne & Hsub & Hg)%reaches_lookup_guards Hl Hfind.
  rewrite call_authenticate. unfold authenticate_table.
  rewrite Hne, Hsub, Hg, Hl, Hfind. simpl. split.
  - intros -> Hdiff ->. simpl.
    assert (negb (Bool.eqb (admin u) (is_admin_of settings claims)) = true)
      as -> by (destruct (admin u) eqn:?, (is_admin_of settings claims) eqn:?;
                simpl; congruence).
    simpl. rewrite new_events_after. split; [|split].
    + unfold stored_admin; simpl.
      rewrite (find_user_replace _ _ _ _ Hfind); [reflexivity|].
      apply (find_user_oidc _ _ _ Hfind).
    + reflexivity.
    + by rewrite <- !app_assoc.
  - intros ->. simpl. unfold stored_admin; simpl. by rewrite Hfind.
Qed.

Lemma admin_sync_follows_admin_group_witness :
  stored_admin (VStr "ann@example.org")
    (call (authenticate settings_groups no_faults claims_ann)
       (world_ann true)).1
  = Some false.
Proof.
  refine (proj1 (proj1
    (admin_sync_follows_admin_group settings_groups no_faults claims_ann
       (world_ann true) (user_ann true) _ _ _) _ _ _));
    try reflexivity.
  discriminate.
Defined.

(** C1, as stated, fails twice.  With group checking on and no admin group
    configured, a stored admin whose claims carry no admin group keeps the
    flag although it differs from [is_admin]; with group checking off and
    an admin group configured, a stored admin is demoted although the flag
    should have been left alone. *)
Lemma claimed_admin_sync_fails :
  ¬ claimed_admin_sync settings_no_admin_group no_faults claims_ann
      (world_ann true)
  ∧ ¬ claimed_admin_sync settings_groups_off no_faults claims_ann
        (world_ann true).
Proof.
  split; intros H.
  - destruct (H (user_ann true)) as [Hon _]; try reflexivity.
    specialize (Hon eq_refl). vm_compute in Hon.
    specialize (Hon ltac:(discriminate)). discriminate.
  - destruct (H (user_ann true)) as [_ Hoff]; try reflexivity.
    specialize (Hoff eq_refl). vm_compute in Hoff. discriminate.
Qed.

(** C9.  With group checking off and an admin group configured,
    [is_admin] is false, and every call that succeeds for an existing OIDC
    user whose stored admin flag is true has set that flag to false by an
    update that comes before the token is issued. *)
Theorem groups_off_demotes_admin settings ft claims w u s :
  let name := dict_get claims (OIDC_USER_CLAIM settings) in
  let remember := OIDC_REMEMBER_ME settings in
  let result := call (authenticate settings ft claims) w in
  OIDC_REQUIRES_GROUP_CLAIM settings = false →
  configured (OIDC_ADMIN_GROUP settings) = true →
  find_user name (rows w) = Some u →
  admin u = true →
  result.2 = Returned (Some s) →
  is_admin_of settings claims = false
  ∧ s = AccessToken (set_admin u false) remember
  ∧ stored_admin name result.1 = Some false
  ∧ new_events w result.1 =
      [EvLookup name; EvLog Debug "[OIDC] %s user as admin";
       EvUpdate (id u) (set_admin u false);
       EvIssue (set_admin u false) remember].
Proof.
  simpl. intros Hreq Hadm Hfind Hu.
  rewrite call_authenticate.
  unfold authenticate_table, group_ok, group_logs, is_admin_of.
  rewrite Hreq, Hadm, Hfind, Hu. simpl.
  repeat (split_innermost; simpl); intros Hs; try discriminate Hs.
  injection Hs as <-. rewrite new_events_after.
  repeat split. unfold stored_admin; simpl.
  rewrite (find_user_replace _ _ _ _ Hfind); [reflexivity|].
  apply (find_user_oidc _ _ _ Hfind).
Qed.

Lemma groups_off_demotes_admin_witness :
  stored_admin (VStr "ann@example.org")
    (call (authenticate settings_groups_off no_faults claims_ann)
       (world_ann true)).1
  = Some false.
Proof.
  refine (proj1 (proj2 (proj2
    (groups_off_demotes_admin settings_groups_off no_faults claims_ann
       (world_ann true) (user_ann true)
       (AccessToken (user_ann false) false) _ _ _ _ _))));
    reflexivity.
Defined.

(** ** Exceptions of the persistence layer *)

(** C2.  The update of an existing user is outside any [try]: when the
    lookup finds an OIDC user, the admin group is configured, the stored
    admin flag differs from [is_admin] and [repos.users.update] raises,
    the exception reaches the caller of [authenticate] instead of becoming
    a refusal. *)
Theorem update_exception_propagates settings ft claims w u e :
  reaches_lookup settings claims = true →
  lookup_raises ft = None →
  find_user (dict_get claims (OIDC_USER_CLAIM settings)) (rows w) = Some u →
  configured (OIDC_ADMIN_GROUP settings) = true →
  admin u ≠ is_admin_of settings claims →
  update_raises ft = Some e →
  (call (authenticate settings ft claims) w).2 = Raised e.
Proof.
  intros (Hne & Hsub & Hg)%reaches_lookup_guards Hl Hfind Hadm Hdiff Hup.
  rewrite call_authenticate. unfold authenticate_table.
  rewrite Hne, Hsub, Hg, Hl, Hfind, Hadm, Hup. simpl.
  by destruct (admin u) eqn:?, (is_admin_of settings claims) eqn:?.
Qed.

(** A stored admin whose claims list only the user group, both groups
    configured, and a locked database. *)
Lemma update_exception_escapes :
  (call (authenticate settings_groups update_fails claims_ann)
     (world_ann true)).2
  = Raised (PersistenceError "database is locked").
Proof.
  apply (update_exception_propagates settings_groups update_fails claims_ann
           (world_ann true) (user_ann true)); try reflexivity.
  discriminate.
Defined.

(** ** The group check *)

Lemma in_group_admin group group_claim :
  in_group group group_claim false
  = configured group && listed group group_claim.
Proof.
  unfold in_group, listed. destruct group as [g|]; [|reflexivity].
  by destruct (configured (Some g)).
Qed.

Lemma in_group_user group group_claim :
  in_group group group_claim true
  = negb (configured group) || listed group group_claim.
Proof.
  unfold in_group, listed. destruct group as [g|]; [|reflexivity].
  by destruct (configured (Some g)).
Qed.

Lemma read_group_claim_empty settings claims :
  claims !! OIDC_GROUPS_CLAIM settings = None
  ∨ claims !! OIDC_GROUPS_CLAIM settings = Some VNone →
  read_group_claim settings claims = VList [].
Proof.
  unfold read_group_claim, dict_get_default. by intros [-> | ->].
Qed.

Lemma read_group_claim_list settings claims l :
  claims !! OIDC_GROUPS_CLAIM settings = Some (VList l) →
  read_group_claim settings claims = VList l.
Proof.
  unfold read_group_claim, dict_get_default, py_or. intros ->.
  by destruct l.
Qed.

(** Without faults a call that reaches the lookup succeeds when the user
    exists or may sign up, and the admin flag of a user it wrote is
    [is_admin]. *)
Lemma lookup_succeeds settings claims w :
  reaches_lookup settings claims = true →
  configured (OIDC_ADMIN_GROUP settings) = true →
  OIDC_SIGNUP_ENABLED settings = true
  ∨ is_Some (find_user (dict_get claims (OIDC_USER_CLAIM settings)) (rows w)) →
  succeeds_with_admin (is_admin_of settings claims)
    (call (authenticate settings no_faults claims) w).
Proof.
  intros (Hne & Hsub & Hg)%reaches_lookup_guards Hadm Hcan.
  rewrite call_authenticate. unfold authenticate_table, succeeds_with_admin.
  rewrite Hne, Hsub, Hg, Hadm. simpl.
  destruct (find_user _ (rows w)) as [u|] eqn:Hfind.
  - destruct (negb (Bool.eqb (admin u) (is_admin_of settings claims))) eqn:Hd;
      simpl; eexists _, _; (split; [reflexivity|]); simpl.
    + split; [reflexivity|].
      apply replace_user_elem. by apply find_user_elem in Hfind.
    + apply negb_false_iff, Bool.eqb_prop in Hd.
      split; [done|]. by apply find_user_elem in Hfind.
  - destruct Hcan as [-> | [? ?]]; [|discriminate]. simpl.
    eexists _, _. split; [reflexivity|]. simpl. split; [reflexivity|].
    apply elem_of_app. right. by apply list_elem_of_singleton.
Qed.

(** C4.  With group checking on and the required claims present, the
    group list is the value of the groups claim, an absent or null value
    reading as the empty list; [is_admin] is "admin group configured and
    listed", [is_valid_user] is "user group not configured or listed";
    [authenticate] refuses, without touching the persistence layer, when
    neither holds, and goes on to the user lookup otherwise.  With both
    groups configured and a list of groups: a user in the user group only
    succeeds with admin flag false, a user in the admin group only succeeds
    with admin flag true, and a user in neither is refused. *)
Theorem group_check settings ft claims w :
  let groups := read_group_claim settings claims in
  let is_admin :=
    configured (OIDC_ADMIN_GROUP settings)
    && listed (OIDC_ADMIN_GROUP settings) groups in
  let is_valid_user :=
    negb (configured (OIDC_USER_GROUP settings))
    || listed (OIDC_USER_GROUP settings) groups in
  let result := call (authenticate settings ft claims) w in
  let name := dict_get claims (OIDC_USER_CLAIM settings) in
  OIDC_REQUIRES_GROUP_CLAIM settings = true →
  claims_ok settings claims = true →
  (claims !! OIDC_GROUPS_CLAIM settings = None
   ∨ claims !! OIDC_GROUPS_CLAIM settings = Some VNone → groups = VList [])
  ∧ (∀ l, claims !! OIDC_GROUPS_CLAIM settings = Some (VList l) →
          groups = VList l)
  ∧ is_admin_of settings claims = is_admin
  ∧ is_valid_user_of settings claims = is_valid_user
  ∧ (is_valid_user || is_admin = false →
       result.2 = Returned None
       ∧ rows result.1 = rows w
       ∧ Forall (λ e, is_persistence e = false) (new_events w result.1))
  ∧ (is_valid_user || is_admin = true →
       EvLookup name ∈ new_events w result.1)
  ∧ (∀ admins users listing,
       OIDC_ADMIN_GROUP settings = Some admins →
       OIDC_USER_GROUP settings = Some users →
       admins ≠ EmptyString → users ≠ EmptyString →
       groups = VList listing →
       (users ∈ listing → admins ∉ listing →
        ft = no_faults →
        OIDC_SIGNUP_ENABLED settings = true ∨ is_Some (find_user name (rows w)) →
          succeeds_with_admin false result)
       ∧ (admins ∈ listing → users ∉ listing →
          ft = no_faults →
          OIDC_SIGNUP_ENABLED settings = true
          ∨ is_Some (find_user name (rows w)) →
            succeeds_with_admin true result)
       ∧ (users ∉ listing → admins ∉ listing → result.2 = Returned None)).
Proof.
  simpl. intros Hreq Hok.
  assert (is_admin_of settings claims
          = configured (OIDC_ADMIN_GROUP settings)
            && listed (OIDC_ADMIN_GROUP settings)
                 (read_group_claim settings claims)) as Hadmin.
  { unfold is_admin_of. rewrite Hreq. apply in_group_admin. }
  assert (is_valid_user_of settings claims
          = negb (configured (OIDC_USER_GROUP settings))
            || listed (OIDC_USER_GROUP settings)
                 (read_group_claim settings claims)) as Hvalid.
  { apply in_group_user. }
  assert (group_ok settings claims
          = is_valid_user_of settings claims || is_admin_of settings claims)
    as Hgate.
  { unfold group_ok. by rewrite Hreq. }
  pose proof Hok as [Hne%negb_true_iff Hsub]%andb_true_iff.
  assert (is_valid_user_of settings claims || is_admin_of settings claims
          = false →
          (call (authenticate settings ft claims) w).2 = Returned None
          ∧ rows (call (authenticate settings ft claims) w).1 = rows w
          ∧ Forall (λ e, is_persistence e = false)
              (new_events w (call (authenticate settings ft claims) w).1))
    as Hrefuse.
  { intros Hno. rewrite call_authenticate. unfold authenticate_table.
    rewrite Hne, Hsub, Hgate, Hno. simpl. rewrite new_events_logged.
    repeat split. unfold group_logs.
    repeat (split_innermost; simpl); repeat constructor. }
  rewrite <- Hadmin, <- Hvalid.
  split; [apply read_group_claim_empty|].
  split; [apply read_group_claim_list|].
  split; [reflexivity|]. split; [reflexivity|].
  split; [exact Hrefuse|]. split.
  - intros Hyes. rewrite call_authenticate. unfold authenticate_table.
    rewrite Hne, Hsub, Hgate, Hyes. simpl.
    repeat (split_innermost; simpl);
      rewrite ?new_events_logged, ?new_events_after;
      rewrite ?elem_of_app, !elem_of_cons; tauto.
  - intros admins users listing Ha Hu Hane Hune Hlist.
    assert (configured (OIDC_ADMIN_GROUP settings) = true) as Hca.
    { rewrite Ha. simpl. apply negb_true_iff. by apply String.eqb_neq. }
    assert (configured (OIDC_USER_GROUP settings) = true) as Hcu.
    { rewrite Hu. simpl. apply negb_true_iff. by apply String.eqb_neq. }
    assert (is_admin_of settings claims = bool_decide (admins ∈ listing))
      as Hadm'.
    { rewrite Hadmin, Hca, Hlist, Ha. reflexivity. }
    assert (is_valid_user_of settings claims = bool_decide (users ∈ listing))
      as Hval'.
    { rewrite Hvalid, Hcu, Hlist, Hu. reflexivity. }
    split; [|split].
    + intros Hin Hnot -> Hcan.
      rewrite <- (bool_decide_eq_false_2 _ Hnot), <- Hadm'.
      apply lookup_succeeds; [|done..].
      unfold reaches_lookup. rewrite Hok, Hgate, Hval'.
      by rewrite (bool_decide_eq_true_2 _ Hin).
    + intros Hin Hnot -> Hcan.
      rewrite <- (bool_decide_eq_true_2 _ Hin), <- Hadm'.
      apply lookup_succeeds; [|done..].
      unfold reaches_lookup. rewrite Hok, Hgate, Hadm'.
      rewrite (bool_decide_eq_true_2 _ Hin). by rewrite orb_true_r.
    + intros Hnu Hna. apply Hrefuse. rewrite Hadm', Hval'.
      by rewrite !bool_decide_eq_false_2.
Qed.

Lemma group_check_witness :
  succeeds_with_admin false
    (call (authenticate settings_groups no_faults claims_ann) world_empty).
Proof.
  destruct (group_check settings_groups no_faults claims_ann world_empty
              eq_refl eq_refl) as (_ & _ & _ & _ & _ & _ & H).
  destruct (H "admins" "users" ["users"]) as [Honly _];
    try reflexivity; try discriminate.
  apply Honly.
  - by apply list_elem_of_singleton.
  - intros Hin%list_elem_of_singleton. discriminate.
  - reflexivity.
  - left. reflexivity.
Defined.

(** ** Which exceptions reach the caller *)



(** X2.  When the call reaches the user lookup and the lookup raises, the
    exception reaches the caller; the user table is as it was and the
    lookup is the only call into the persistence layer. *)
Theorem lookup_exception_propagates settings ft claims w e :
  reaches_lookup settings claims = true →
  lookup_raises ft = Some e →
  let result := call (authenticate settings ft claims) w in
  result.2 = Raised e
  ∧ rows result.1 = rows w
  ∧ persistence_calls (new_events w result.1)
    = [EvLookup (dict_get claims (OIDC_USER_CLAIM settings))].
Proof.
  intros (Hne & Hsub & Hg)%reaches_lookup_guards Hl. simpl.
  rewrite call_authenticate. unfold authenticate_table.
  rewrite Hne, Hsub, Hg, Hl. simpl. rewrite new_events_logged.
  repeat split. unfold persistence_calls, group_logs.
  repeat (split_innermost; simpl); reflexivity.
Qed.

Lemma lookup_exception_propagates_witness :
  (call (authenticate settings_groups lookup_fails claims_ann)
     (world_ann true)).2
  = Raised (PersistenceError "connection refused").
Proof.
  refine (proj1 (lookup_exception_propagates settings_groups lookup_fails
                   claims_ann (world_ann true) _ _ _)); reflexivity.
Defined.

(** ** The order of the calls into the persistence layer *)

(** X3.  The calls of [authenticate] into the persistence layer are, in
    order: nothing; or the lookup alone; or the lookup, then one update; or
    the lookup, then one create, then at most one commit.  No write comes
    before the lookup, and an update is never committed by this method. *)
Theorem persistence_protocol settings ft claims w :
  let name := dict_get claims (OIDC_USER_CLAIM settings) in
  let calls :=
    persistence_calls
      (new_events w (call (authenticate settings ft claims) w).1) in
  calls = []
  ∨ calls = [EvLookup name]
  ∨ (∃ u, calls = [EvLookup name; EvUpdate (id u) u])
  ∨ (∃ data, calls = [EvLookup name; EvCreate data]
             ∨ calls = [EvLookup name; EvCreate data; EvCommit]).
Proof.
  simpl. rewrite call_authenticate.
  unfold authenticate_table, group_logs, persistence_calls.
  repeat (split_innermost; simpl);
    rewrite ?new_events_logged, ?new_events_after; simpl; eauto 7.
  all: right; right; left; eexists (set_admin _ _); reflexivity.
Qed.

(** ** What a successful call hands out *)

(** X4.  A token is returned exactly when issuing it is the last thing the
    call did.  It is issued with the remember-me setting, for a user that
    is in the user table after the call and whose auth method is OIDC. *)
Theorem token_for_stored_oidc_user settings ft claims w s :
  let result := call (authenticate settings ft claims) w in
  result.2 = Returned (Some s) →
  session_remember_me s = OIDC_REMEMBER_ME settings
  ∧ session_user s ∈ rows result.1
  ∧ auth_method (session_user s) = OIDC
  ∧ last (new_events w result.1)
    = Some (EvIssue (session_user s) (session_remember_me s)).
Proof.
  simpl. rewrite call_authenticate. unfold authenticate_table.
  destruct (bool_decide (claims = ∅)); [discriminate|].
  destruct (negb (bool_decide _)); [discriminate|].
  destruct (negb (group_ok _ _)); [discriminate|]. simpl.
  destruct (lookup_raises ft); [discriminate|].
  destruct (find_user _ (rows w)) as [u|] eqn:Hfind.
  - pose proof (find_user_elem _ _ _ Hfind) as Hin.
    pose proof (find_user_oidc _ _ _ Hfind) as Hoidc.
    apply andb_true_iff in Hoidc as [_ Hoidc%bool_decide_eq_true].
    destruct (_ && _); [destruct (update_raises ft); [discriminate|]|];
      simpl; intros [= <-]; simpl;
      rewrite ?new_events_logged, ?new_events_after, ?app_assoc, last_snoc;
      repeat split; try done.
    by apply replace_user_elem.
  - destruct (negb (OIDC_SIGNUP_ENABLED settings)); [discriminate|].
    destruct (create_raises ft); [discriminate|].
    destruct (commit_raises ft); [discriminate|].
    simpl. intros [= <-]. simpl.
    rewrite new_events_after, ?app_assoc.
    change [EvCommit; ?e] with ([EvCommit] ++ [e]).
    rewrite ?app_assoc, last_snoc. repeat split.
    apply elem_of_app. right. by apply list_elem_of_singleton.
Qed.

Lemma token_for_stored_oidc_user_witness :
  auth_method (user_ann false) = OIDC.
Proof.
  refine (proj1 (proj2 (proj2
    (token_for_stored_oidc_user settings_groups no_faults claims_ann
       (world_ann true) (AccessToken (user_ann false) false) _))));
    reflexivity.
Defined.

(** ** Signup switched off *)

(** X5.  With signup disabled no call creates a user or commits, whatever
    the claims and whatever the persistence layer does: the user table
    keeps its length. *)
Theorem no_signup_no_create settings ft claims w :
  OIDC_SIGNUP_ENABLED settings = false →
  let result := call (authenticate settings ft claims) w in
  length (rows result.1) = length (rows w)
  ∧ Forall (λ e, e ≠ EvCommit ∧ ∀ data, e ≠ EvCreate data)
      (new_events w result.1).
Proof.
  intros Hsu. simpl. rewrite call_authenticate.
  unfold authenticate_table, group_logs. rewrite Hsu. simpl.
  repeat (split_innermost; simpl);
    rewrite ?new_events_logged, ?new_events_after; simpl;
    (split;
     [ unfold replace_user; by rewrite ?length_map
     | repeat (apply Forall_cons_2; [by split|]); apply Forall_nil_2 ]).
Qed.

Lemma no_signup_no_create_witness :
  length (rows (call (authenticate settings_no_signup create_fails claims_ann)
                  (world_ann true)).1) = 1%nat.
Proof.
  refine (proj1 (no_signup_no_create settings_no_signup create_fails
                   claims_ann (world_ann true) _)).
  reflexivity.
Defined.

(** ** An existing user *)

(** X6.  When the lookup finds a user, the call never creates a user and
    never commits; it calls update exactly when the admin group is
    configured and the stored admin flag differs from [is_admin], and
    otherwise leaves the user table as it was and issues the token for the
    user as stored. *)
Theorem existing_user_writes settings ft claims w u :
  let name := dict_get claims (OIDC_USER_CLAIM settings) in
  let is_admin := is_admin_of settings claims in
  let result := call (authenticate settings ft claims) w in
  let sync :=
    configured (OIDC_ADMIN_GROUP settings)
    && negb (Bool.eqb (admin u) is_admin) in
  reaches_lookup settings claims = true →
  lookup_raises ft = None →
  find_user name (rows w) = Some u →
  persistence_calls (new_events w result.1)
  = (if sync
     then [EvLookup name; EvUpdate (id u) (set_admin u is_admin)]
     else [EvLookup name])
  ∧ (sync = false →
       rows result.1 = rows w
       ∧ result.2
         = Returned (Some (AccessToken u (OIDC_REMEMBER_ME settings)))).
Proof.
  simpl. intros (Hne & Hsub & Hg)%reaches_lookup_guards Hl Hfind.
  rewrite call_authenticate. unfold authenticate_table.
  rewrite Hne, Hsub, Hg, Hl, Hfind. simpl.
  assert (persistence_calls (group_logs settings claims) = []) as Hlogs.
  { unfold group_logs. by repeat (split_innermost; simpl). }
  unfold persistence_calls in *.
  destruct (_ && _); [destruct (update_raises ft)|]; simpl;
    rewrite ?new_events_logged, ?new_events_after;
    rewrite !List.filter_app, Hlogs; simpl; split; done.
Qed.

Lemma existing_user_writes_witness :
  (call (authenticate settings_groups no_faults claims_ann)
     (world_ann false)).2
  = Returned (Some (AccessToken (user_ann false) false)).
Proof.
  refine (proj2 (proj2
    (existing_user_writes settings_groups no_faults claims_ann
       (world_ann false) (user_ann false) _ _ _) _)); reflexivity.
Defined.

Lemma set_admin_same r : set_admin r (admin r) = r.
Proof. by destruct r. Qed.

Lemma same_id_same_row (users : list PrivateUser) r u :
  NoDup (id <$> users) → r ∈ users → u ∈ users → id r = id u → r = u.
Proof.
  intros Hnd [i Hi]%list_elem_of_lookup [j Hj]%list_elem_of_lookup Hid.
  assert (i = j) as ->.
  { eapply NoDup_lookup; [exact Hnd| |].
    - rewrite list_lookup_fmap, Hi. reflexivity.
    - rewrite list_lookup_fmap, Hj. simpl. by rewrite Hid. }
  congruence.
Qed.

(** X7.  A call changes nothing in the rows it found in the user table
    but the admin flag of the user it logs in, provided the ids of the
    table are distinct: every row keeps its place and all its other
    fields, and a row that the lookup does not match is untouched. *)
Theorem only_admin_flag_changes settings ft claims w i r :
  let name := dict_get claims (OIDC_USER_CLAIM settings) in
  let result := call (authenticate settings ft claims) w in
  NoDup (id <$> rows w) →
  rows w !! i = Some r →
  ∃ r', rows result.1 !! i = Some r'
        ∧ same_but_admin r r'
        ∧ (is_oidc_user name r = false → r' = r).
Proof.
  simpl. intros Hnd Hi. unfold same_but_admin.
  assert (∃ r', rows w !! i = Some r' ∧ r' = set_admin r (admin r')
                ∧ (is_oidc_user (dict_get claims (OIDC_USER_CLAIM settings)) r
                   = false → r' = r)) as Hsame.
  { exists r. by rewrite set_admin_same. }
  assert (∀ u, (rows w ++ [u]) !! i = Some r) as Happ.
  { intros u. by apply lookup_app_l_Some. }
  rewrite call_authenticate. unfold authenticate_table.
  destruct (find_user _ (rows w)) as [u|] eqn:Hfind;
    repeat (split_innermost; simpl); try exact Hsame;
    try (exists r; rewrite Happ, set_admin_same; done).
  all: unfold replace_user; rewrite list_lookup_fmap, Hi; simpl.
  all: destruct (id r =? id u)%nat eqn:Hid;
    [|exists r; by rewrite set_admin_same].
  all: apply Nat.eqb_eq in Hid.
  all: assert (r = u) as ->
    by (eapply same_id_same_row;
        [exact Hnd | by eapply list_elem_of_lookup_2
        | by eapply find_user_elem | done]).
  all: eexists; split; [reflexivity|]; split; [reflexivity|].
  all: intros Hno; apply find_user_oidc in Hfind; congruence.
Qed.

Lemma only_admin_flag_changes_witness :
  ∃ r', rows (call (authenticate settings_groups no_faults claims_ann)
                world_ann_bob).1 !! 0%nat = Some r'
        ∧ same_but_admin user_bob r'
        ∧ (is_oidc_user (VStr "ann@example.org") user_bob = false →
           r' = user_bob).
Proof.
  apply (only_admin_flag_changes settings_groups no_faults claims_ann
           world_ann_bob 0 user_bob).
  - apply (bool_decide_unpack _). vm_compute. exact I.
  - reflexivity.
Defined.

(** ** Logging in again *)




(** ** Edges of the group check *)

Lemma starts_with_append p s : starts_with p (p +:+ s) = true.
Proof.
  induction p as [|a p IH]; simpl; [reflexivity|].
  by rewrite Ascii.eqb_refl.
Qed.

Lemma occurs_in_here p s : starts_with p s = true → occurs_in p s = true.
Proof. intros H. destruct s; simpl in *; by rewrite H. Qed.

Lemma occurs_in_append p before rest :
  occurs_in p (before +:+ (p +:+ rest)) = true.
Proof.
  induction before as [|a before IH].
  - change (EmptyString +:+ (p +:+ rest)) with (p +:+ rest).
    apply occurs_in_here, starts_with_append.
  - change (String a before +:+ (p +:+ rest))
      with (String a (before +:+ (p +:+ rest))).
    simpl. rewrite IH. apply orb_true_r.
Qed.

Lemma append_not_empty p before rest :
  p ≠ EmptyString →
  (before +:+ (p +:+ rest) =? EmptyString)%string = false.
Proof.
  intros Hp. destruct before as [|a before]; [|reflexivity].
  destruct p as [|a p]; [by destruct Hp | reflexivity].
Qed.

(** X9.  The membership test of the group check is Python's [in]: when the
    groups claim is one text and not a list, a configured admin group
    that occurs anywhere inside that text counts as listed, so the call
    passes the group check and the user is logged in as admin. *)
Theorem admin_group_inside_text settings claims w admins before rest :
  OIDC_REQUIRES_GROUP_CLAIM settings = true →
  claims_ok settings claims = true →
  OIDC_ADMIN_GROUP settings = Some admins →
  admins ≠ EmptyString →
  claims !! OIDC_GROUPS_CLAIM settings
  = Some (VStr (before +:+ (admins +:+ rest))) →
  OIDC_SIGNUP_ENABLED settings = true
  ∨ is_Some (find_user (dict_get claims (OIDC_USER_CLAIM settings)) (rows w)) →
  succeeds_with_admin true
    (call (authenticate settings no_faults claims) w).
Proof.
  intros Hreq Hok Ha Hne Hgroups Hcan.
  assert (configured (OIDC_ADMIN_GROUP settings) = true) as Hconf.
  { rewrite Ha. simpl. apply negb_true_iff. by apply String.eqb_neq. }
  assert (is_admin_of settings claims = true) as Hadmin.
  { unfold is_admin_of, in_group, read_group_claim, dict_get_default, py_or.
    rewrite Ha in Hconf. rewrite Hreq, Ha, Hgroups, Hconf.
    unfold truthy. rewrite append_not_empty by done. simpl.
    apply occurs_in_append. }
  rewrite <- Hadmin. apply lookup_succeeds; [|done..].
  unfold reaches_lookup, group_ok. rewrite Hok, Hreq, Hadmin.
  by rewrite orb_true_r.
Qed.

Lemma admin_group_inside_text_witness :
  succeeds_with_admin true
    (call (authenticate settings_groups no_faults claims_text_groups)
       world_empty).
Proof.
  apply (admin_group_inside_text settings_groups claims_text_groups
           world_empty "admins" "super" EmptyString);
    try reflexivity.
  - discriminate.
  - left. reflexivity.
Defined.



(** X11.  With group checking on, a groups claim that is null, an empty
    text or an empty list reads as no groups at all: [is_admin] is false,
    and when a user group is configured the call is refused before any
    call into the persistence layer. *)
Theorem empty_groups_claim settings ft claims w v :
  let result := call (authenticate settings ft claims) w in
  OIDC_REQUIRES_GROUP_CLAIM settings = true →
  claims_ok settings claims = true →
  claims !! OIDC_GROUPS_CLAIM settings = Some v →
  truthy v = false →
  is_admin_of settings claims = false
  ∧ (configured (OIDC_USER_GROUP settings) = true →
       result.2 = Returned None
       ∧ rows result.1 = rows w
       ∧ persistence_calls (new_events w result.1) = []).
Proof.
  simpl. intros Hreq Hok Hv Hfalsy.
  assert (read_group_claim settings claims = VList []) as Hgroups.
  { unfold read_group_claim, dict_get_default, py_or. by rewrite Hv, Hfalsy. }
  assert (∀ group, in_group group (VList []) false = false) as Hnone.
  { intros [g|]; [|reflexivity]. unfold in_group.
    by destruct (configured (Some g)). }
  assert (is_admin_of settings claims = false) as Hadmin.
  { unfold is_admin_of. by rewrite Hreq, Hgroups. }
  split; [exact Hadmin|]. intros Huser.
  assert (is_valid_user_of settings claims = false) as Hvalid.
  { unfold is_valid_user_of, in_group. rewrite Hgroups.
    destruct (OIDC_USER_GROUP settings) as [g|]; [|discriminate].
    by rewrite Huser. }
  pose proof Hok as [Hne%negb_true_iff Hsub]%andb_true_iff.
  rewrite call_authenticate. unfold authenticate_table, group_ok, group_logs.
  rewrite Hne, Hsub, Hreq, Hvalid, Hadmin. simpl.
  by rewrite new_events_logged.
Qed.

Lemma empty_groups_claim_witness :
  (call (authenticate settings_groups no_faults (claims_of []))
     (world_ann true)).2
  = Returned None.
Proof.
  refine (proj1 (proj2
    (empty_groups_claim settings_groups no_faults (claims_of [])
       (world_ann true) (VList []) _ _ _ _) _)); reflexivity.
Defined.
